(** * Shallow embedding of [backend/ai_generator.py]

    The tool-calling loop of [AIGenerator]: [generate_response],
    [_handle_tool_loop], [_execute_tools] and [_extract_text_response].

    Effects are threaded through a small state monad whose state holds
    - a store of Python list objects (locations to contents), so that the
      [messages.copy()] of [_handle_tool_loop] and the aliasing of the
      caller's list are explicit;
    - the log of every [client.messages.create] request made so far;
    - the log of every [tool_manager.execute_tool] invocation made so far.
    The provider and the tool manager are arbitrary functions of the
    interaction history, so every sequence of provider responses and every
    (stateful, possibly raising) tool manager is covered. *)

From Stdlib Require Import String Ascii List Bool Arith Lia.
Import ListNotations.
Open Scope string_scope.

(** [MAX_TOOL_ROUNDS = 2] *)
Definition MAX_TOOL_ROUNDS : nat := 2.

(** ** Data model *)

(** Keyword arguments of a tool call ([block.input]). *)
Definition kwargs := list (string * string).

(** Response content blocks, a tagged union on [block.type]. *)
Inductive content_block :=
| TextBlock (text : string)                                   (* type "text" *)
| ToolUseBlock (id : string) (name : string) (input : kwargs) (* type "tool_use" *)
| OtherBlock (type : string).      (* any other block type (e.g. "thinking") *)

(** A provider response: [response.stop_reason], [response.content]. *)
Record response := mk_response {
  stop_reason : string;
  content : list content_block
}.

(** A tool definition as supplied in [tools]. *)
Record tool_def := mk_tool_def {
  tool_name : string;
  tool_description : string;
  tool_input_schema : string
}.

(** The tool-result dictionaries built by [_execute_tools]; [is_error] is
    [None] when the key is absent. *)
Record tool_result := mk_tool_result {
  tr_type : string;
  tool_use_id : string;
  tr_content : string;
  is_error : option bool
}.

(** The ["content"] of a message: a query string, the assistant's
    [response.content], or a list of tool results. *)
Inductive message_content :=
| Plain (s : string)
| Blocks (bs : list content_block)
| Results (rs : list tool_result).

Record message := mk_message {
  role : string;
  msg_content : message_content
}.

(** The keyword arguments of one [client.messages.create(..)] call.
    [req_tools] / [req_tool_choice] are [None] when the key is absent. *)
Record request := mk_request {
  req_model : string;
  req_temperature : nat;
  req_max_tokens : nat;
  req_messages : list message;
  req_system : string;
  req_tools : option (list tool_def);
  req_tool_choice : option string
}.

(** One [tool_manager.execute_tool(name, **input)] invocation. *)
Definition invocation := (string * kwargs)%type.

(** What an invocation does: return a string, or raise an [Exception]
    whose [str(e)] is given. *)
Inductive outcome :=
| Returned (result : string)
| Raised (err : string).

(** A tool manager: the outcome of an invocation may depend on all
    earlier invocations (the manager and its tools are stateful). *)
Record tool_manager := mk_tool_manager {
  execute_tool : list invocation -> string -> kwargs -> outcome
}.

(** Locations of Python list objects. *)
Definition loc := nat.

Record state := mk_state {
  heap : loc -> list message;
  next_loc : loc;
  calls : list request;
  tool_log : list invocation
}.

(** ** A state monad *)

Definition M (A : Type) := state -> A * state.

Definition ret {A} (a : A) : M A := fun s => (a, s).
Definition bind {A B} (m : M A) (f : A -> M B) : M B :=
  fun s => let (a, s') := m s in f a s'.

Notation "x <- m ;; k" := (bind m (fun x => k))
  (at level 61, m at next level, right associativity).
Notation "' p <- m ;; k" := (bind m (fun x => match x with p => k end))
  (at level 61, p pattern, m at next level, right associativity).
Notation "m ;;; k" := (bind m (fun _ => k))
  (at level 61, right associativity).

Definition upd (h : loc -> list message) (l : loc) (v : list message) :=
  fun l' => if Nat.eqb l' l then v else h l'.

(** Allocate a new list object holding [v]. *)
Definition alloc (v : list message) : M loc :=
  fun s => (next_loc s,
            mk_state (upd (heap s) (next_loc s) v) (S (next_loc s))
                     (calls s) (tool_log s)).

Definition read (l : loc) : M (list message) := fun s => (heap s l, s).

(** [lst.append(m)] on the list object at [l]. *)
Definition append (l : loc) (m : message) : M unit :=
  fun s => (tt, mk_state (upd (heap s) l (heap s l ++ [m])) (next_loc s)
                         (calls s) (tool_log s)).

(** [lst.copy()]: a new list object with the same elements. *)
Definition copy (l : loc) : M loc := v <- read l ;; alloc v.

(** [double quote] *)
Definition dq : string := String (ascii_of_nat 34) EmptyString.

(** [AIGenerator.SYSTEM_PROMPT], verbatim as UTF-8 bytes (double quotes spliced in with
    [dq]). *)
Definition SYSTEM_PROMPT : string :=
  " You are an AI assistant specialized in course materials and educational content with access to tools for course information.

Available Tools:
1. **search_course_content**: Search within course content for specific topics or information
2. **get_course_outline**: Get course structure including title, link, and complete lesson list

Tool Usage Guidelines:
- Use **get_course_outline** for questions about:
  - Course structure or outline
  - What lessons are in a course
  - Course links or lesson lists
  - Overview of course content
- Use **search_course_content** for questions about:
  - Specific course content or topics
  - Detailed information within lessons
- **Maximum 2 tool call rounds per query** - Use a second round only if first results are insufficient
- Each search should serve a distinct purpose (e.g., different courses or refining a query)
- If search yields no results, state this clearly without offering alternatives

Response Protocol:
- **General knowledge questions**: Answer using existing knowledge without searching
- **Course-specific questions**: Use appropriate tool first, then answer
- **No meta-commentary**:
  - Provide direct answers only â€” no reasoning process, search explanations, or question-type analysis
  - Do not mention " ++ dq ++ "based on the search results" ++ dq ++ " or " ++ dq ++ "based on the outline" ++ dq ++ "

For outline queries, always include:
- Course title
- Course link
- Complete lesson list with lesson numbers and titles

All responses must be:
1. **Brief, Concise and focused** - Get to the point quickly
2. **Educational** - Maintain instructional value
3. **Clear** - Use accessible language
4. **Example-supported** - Include relevant examples when they aid understanding
Provide only the direct answer to what was asked.
".

Section Generator.

(** [self.client]: the provider; its response may depend on every
    earlier request. *)
Variable client : list request -> request -> response.
(** [self.model] *)
Variable model : string.

(** [self.client.messages.create(..)] *)
Definition messages_create (params : request) : M response :=
  fun s => (client (calls s) params,
            mk_state (heap s) (next_loc s) (calls s ++ [params]) (tool_log s)).

(** [tool_manager.execute_tool(name, **input)] with its [try]: a raised
    exception is returned as [Raised]. *)
Definition call_tool (tm : tool_manager) (name : string) (input : kwargs)
  : M outcome :=
  fun s => (execute_tool tm (tool_log s) name input,
            mk_state (heap s) (next_loc s) (calls s)
                     (tool_log s ++ [(name, input)])).

(** [self.base_params] merged with messages, system and optional tools. *)
Definition params (messages : list message) (system : string)
  (tools : option (list tool_def)) : request :=
  mk_request model 0 800 messages system tools
    (match tools with Some _ => Some "auto" | None => None end).

Definition is_tool_use (r : response) : bool :=
  String.eqb (stop_reason r) "tool_use".

(** [_extract_text_response] *)
Fixpoint first_text (bs : list content_block) : string :=
  match bs with
  | [] => ""
  | TextBlock t :: _ => t
  | _ :: rest => first_text rest
  end.

Definition _extract_text_response (r : response) : string :=
  first_text (content r).

(** The loop body of [_execute_tools]. *)
Fixpoint execute_blocks (tm : tool_manager) (bs : list content_block)
  (tool_results : list tool_result) (has_error : bool)
  : M (list tool_result * bool) :=
  match bs with
  | [] => ret (tool_results, has_error)
  | ToolUseBlock id name input :: rest =>
      o <- call_tool tm name input ;;
      match o with
      | Returned result =>
          execute_blocks tm rest
            (tool_results ++ [mk_tool_result "tool_result" id result None])
            has_error
      | Raised e =>
          execute_blocks tm rest
            (tool_results ++
             [mk_tool_result "tool_result" id ("Error: " ++ e) (Some true)])
            true
      end
  | _ :: rest => execute_blocks tm rest tool_results has_error
  end.

(** [_execute_tools] *)
Definition _execute_tools (r : response) (tm : tool_manager)
  : M (list tool_result * bool) :=
  execute_blocks tm (content r) [] false.

(** One pass of the [while] body of [_handle_tool_loop] after
    [round_count += 1], up to the [client.messages.create] call; returns the
    new response and [has_error]. *)
Definition tool_round (round_count : nat) (messages : loc) (system : string)
  (tools : list tool_def) (tm : tool_manager) (r : response)
  : M (response * bool) :=
  append messages (mk_message "assistant" (Blocks (content r))) ;;;
  '(tool_results, has_error) <- _execute_tools r tm ;;
  append messages (mk_message "user" (Results tool_results)) ;;;
  let include_tools := negb has_error && (Nat.ltb round_count MAX_TOOL_ROUNDS) in
  msgs <- read messages ;;
  r' <- messages_create
          (params msgs system (if include_tools then Some tools else None)) ;;
  ret (r', has_error).

(** The [while] loop of [_handle_tool_loop]; returns the last response and
    [round_count].  [fuel] only makes the recursion structural: started at
    [MAX_TOOL_ROUNDS] with [round_count = 0] it never runs out before the
    guard [round_count < MAX_TOOL_ROUNDS] fails. *)
Fixpoint tool_loop (fuel : nat) (round_count : nat) (messages : loc)
  (system : string) (tools : list tool_def) (tm : tool_manager)
  (r : response) : M (response * nat) :=
  if is_tool_use r && (Nat.ltb round_count MAX_TOOL_ROUNDS) then
    match fuel with
    | O => ret (r, round_count)
    | S fuel' =>
        let round_count := round_count + 1 in
        '(r', has_error) <- tool_round round_count messages system tools tm r ;;
        if has_error then ret (r', round_count)
        else tool_loop fuel' round_count messages system tools tm r'
    end
  else ret (r, round_count).

(** [_handle_tool_loop] *)
Definition _handle_tool_loop (r : response) (messages : loc)
  (system_content : string) (tools : list tool_def) (tm : tool_manager)
  : M string :=
  messages' <- copy messages ;;
  '(r', _) <- tool_loop MAX_TOOL_ROUNDS 0 messages' system_content tools tm r ;;
  ret (_extract_text_response r').

(** The truthiness tests [if conversation_history] and [if tools]. *)
Definition history_truthy (h : option string) : bool :=
  match h with Some (String _ _) => true | _ => false end.

Definition tools_truthy (t : option (list tool_def)) : bool :=
  match t with Some (_ :: _) => true | _ => false end.

(** [system_content] of [generate_response] *)
Definition system_content_of (conversation_history : option string) : string :=
  match conversation_history with
  | Some h =>
      if history_truthy conversation_history
      then SYSTEM_PROMPT ++ "

Previous conversation:
" ++ h
      else SYSTEM_PROMPT
  | None => SYSTEM_PROMPT
  end.

(** [generate_response]; [tool_manager = None] is the default [None]. *)
Definition generate_response (query : string)
  (conversation_history : option string) (tools : option (list tool_def))
  (tool_manager : option tool_manager) : M string :=
  let system_content := system_content_of conversation_history in
  api_messages <- alloc [mk_message "user" (Plain query)] ;;
  msgs <- read api_messages ;;
  r <- messages_create
         (params msgs system_content
            (if tools_truthy tools then tools else None)) ;;
  if is_tool_use r then
    match tool_manager, tools with
    | Some tm, Some ((_ :: _) as ts) =>
        _handle_tool_loop r api_messages system_content ts tm
    | _, _ => ret (_extract_text_response r)
    end
  else ret (_extract_text_response r).

(** ** Auxiliary descriptions used in the statements *)

(** The outcome of every tool-use block of [bs], in order, each
    invocation seeing the log of the earlier ones. *)
Fixpoint tool_outcomes (tm : tool_manager) (log : list invocation)
  (bs : list content_block) : list (string * outcome) :=
  match bs with
  | [] => []
  | ToolUseBlock id name input :: rest =>
      (id, execute_tool tm log name input)
        :: tool_outcomes tm (log ++ [(name, input)]) rest
  | _ :: rest => tool_outcomes tm log rest
  end.

(** The invocations the tool-use blocks of [bs] ask for. *)
Fixpoint tool_invocations (bs : list content_block) : list invocation :=
  match bs with
  | [] => []
  | ToolUseBlock _ name input :: rest => (name, input) :: tool_invocations rest
  | _ :: rest => tool_invocations rest
  end.

(** The ids of the tool-use blocks of [bs], in order. *)
Fixpoint tool_use_ids (bs : list content_block) : list string :=
  match bs with
  | [] => []
  | ToolUseBlock id _ _ :: rest => id :: tool_use_ids rest
  | _ :: rest => tool_use_ids rest
  end.

Definition outcome_raised (p : string * outcome) : bool :=
  match snd p with Raised _ => true | Returned _ => false end.

(** The tool-result dictionary [_execute_tools] builds for an outcome. *)
Definition result_of (p : string * outcome) : tool_result :=
  match p with
  | (id, Returned result) => mk_tool_result "tool_result" id result None
  | (id, Raised e) =>
      mk_tool_result "tool_result" id ("Error: " ++ e) (Some true)
  end.

(** A result carries [is_error: True]. *)
Definition flagged (t : tool_result) : bool :=
  match is_error t with Some true => true | _ => false end.

(** The two messages one round appends. *)
Definition round_msgs (round : response * list tool_result) : list message :=
  [mk_message "assistant" (Blocks (content (fst round)));
   mk_message "user" (Results (snd round))].

(** The responses the provider gives to the requests [reqs] made in order
    after the requests [prev]. *)
Fixpoint replies (prev : list request) (reqs : list request) : list response :=
  match reqs with
  | [] => []
  | q :: qs => client prev q :: replies (prev ++ [q]) qs
  end.

End Generator.

(** ** Basic lemmas *)

Open Scope list_scope.

Lemma upd_same h l v : upd h l v l = v.
Proof. unfold upd. now rewrite Nat.eqb_refl. Qed.

Lemma upd_other h l v l' : l' <> l -> upd h l v l' = h l'.
Proof. intros H. unfold upd. apply Nat.eqb_neq in H. now rewrite H. Qed.

Lemma first_text_no_text bs :
  (forall t, ~ In (TextBlock t) bs) -> first_text bs = "".
Proof.
  induction bs as [|b bs IH]; intros H; [reflexivity|].
  destruct b; simpl.
  - exfalso. apply (H text). now left.
  - apply IH. intros t Ht. apply (H t). now right.
  - apply IH. intros t Ht. apply (H t). now right.
Qed.

Section Lemmas.
Variable client : list request -> request -> response.
Variable model : string.

Lemma execute_blocks_eq tm bs acc he s :
  execute_blocks tm bs acc he s =
  ((acc ++ map result_of (tool_outcomes tm (tool_log s) bs),
    he || existsb outcome_raised (tool_outcomes tm (tool_log s) bs)),
   mk_state (heap s) (next_loc s) (calls s) (tool_log s ++ tool_invocations bs)).
Proof.
  revert acc he s.
  induction bs as [|b bs IH]; intros acc he s.
  - destruct s; simpl. now rewrite app_nil_r, orb_false_r, app_nil_r.
  - destruct b as [t|id name input|ty]; simpl; try (rewrite IH; reflexivity).
    unfold bind, call_tool. simpl.
    destruct (execute_tool tm (tool_log s) name input) eqn:E;
      rewrite IH; simpl; rewrite <- !app_assoc; simpl.
    + reflexivity.
    + now rewrite orb_true_r.
Qed.

Lemma execute_tools_eq r tm s :
  _execute_tools r tm s =
  ((map result_of (tool_outcomes tm (tool_log s) (content r)),
    existsb outcome_raised (tool_outcomes tm (tool_log s) (content r))),
   mk_state (heap s) (next_loc s) (calls s)
     (tool_log s ++ tool_invocations (content r))).
Proof. unfold _execute_tools. now rewrite execute_blocks_eq. Qed.

Lemma result_ids tm log bs :
  map tool_use_id (map result_of (tool_outcomes tm log bs)) = tool_use_ids bs.
Proof.
  revert log. induction bs as [|b bs IH]; intros log; [reflexivity|].
  destruct b; simpl; auto.
  destruct (execute_tool tm log name input); simpl; f_equal; apply IH.
Qed.

Lemma flagged_raised tm log bs :
  existsb flagged (map result_of (tool_outcomes tm log bs)) =
  existsb outcome_raised (tool_outcomes tm log bs).
Proof.
  revert log. induction bs as [|b bs IH]; intros log; [reflexivity|].
  destruct b; simpl; auto.
  destruct (execute_tool tm log name input); simpl; auto.
Qed.

(** One round, computed. *)
Lemma tool_round_eq rc l sys tools tm r s :
  let outs := tool_outcomes tm (tool_log s) (content r) in
  let res := map result_of outs in
  let he := existsb outcome_raised outs in
  let msgs := heap s l ++ round_msgs (r, res) in
  let q := params model msgs sys
             (if negb he && Nat.ltb rc MAX_TOOL_ROUNDS then Some tools else None) in
  tool_round client model rc l sys tools tm r s =
  ((client (calls s) q, he),
   mk_state (upd (upd (heap s) l (heap s l ++ [mk_message "assistant" (Blocks (content r))]))
                 l msgs)
            (next_loc s) (calls s ++ [q])
            (tool_log s ++ tool_invocations (content r))).
Proof.
  intros outs res he msgs q.
  unfold tool_round, bind, append at 1. simpl.
  rewrite execute_tools_eq. simpl.
  unfold read, messages_create, ret. simpl.
  rewrite !upd_same. unfold msgs, round_msgs. simpl. rewrite <- app_assoc. reflexivity.
Qed.

End Lemmas.

Lemma last_cons_cons {A} (a b : A) l d : last (a :: b :: l) d = last (b :: l) d.
Proof. reflexivity. Qed.

Lemma last_default_irrel {A} (b : A) l d d' : last (b :: l) d = last (b :: l) d'.
Proof.
  revert b. induction l as [|c l IH]; intros b; [reflexivity|].
  rewrite !(last_cons_cons b c). apply IH.
Qed.

Section Loop.
Variable client : list request -> request -> response.
Variable model : string.

Definition guard (rc : nat) (r : response) : bool :=
  is_tool_use r && Nat.ltb rc MAX_TOOL_ROUNDS.

Lemma tool_loop_exit fuel rc l sys tools tm r s :
  guard rc r = false ->
  tool_loop client model fuel rc l sys tools tm r s = ((r, rc), s).
Proof.
  intros G. unfold guard in G. destruct fuel; simpl; now rewrite G.
Qed.

Lemma tool_loop_step fuel rc l sys tools tm r s :
  guard rc r = true ->
  tool_loop client model (S fuel) rc l sys tools tm r s =
  let '((r', he), s') := tool_round client model (rc + 1) l sys tools tm r s in
  if he then ((r', rc + 1), s')
  else tool_loop client model fuel (rc + 1) l sys tools tm r' s'.
Proof.
  intros G. unfold guard in G. simpl. rewrite G. unfold bind.
  destruct (tool_round client model (rc + 1) l sys tools tm r s) as [[r' he] s'].
  destruct he; reflexivity.
Qed.

(** The request a round with results [res] sends, at round counter [rc]. *)
Definition round_request (msgs : list message) (sys : string)
  (tools : list tool_def) (rc : nat) (res : list tool_result) : request :=
  params model msgs sys
    (if negb (existsb flagged res) && Nat.ltb rc MAX_TOOL_ROUNDS
     then Some tools else None).

(** Everything a run of the [while] loop does, as a list of rounds (each
    the response that asked for tools and the tool results of its round)
    and the list of requests it made. *)
Lemma tool_loop_trace fuel rc l sys tools tm r s r_f n s_f :
  tool_loop client model fuel rc l sys tools tm r s = ((r_f, n), s_f) ->
  exists (rounds : list (response * list tool_result)) (reqs : list request),
    heap s_f l = heap s l ++ flat_map round_msgs rounds /\
    (forall l', l' <> l -> heap s_f l' = heap s l') /\
    next_loc s_f = next_loc s /\
    calls s_f = calls s ++ reqs /\
    tool_log s_f = tool_log s ++ flat_map (fun rd => tool_invocations (content (fst rd))) rounds /\
    length reqs = length rounds /\
    n = rc + length rounds /\
    rc + length rounds <= Nat.max rc MAX_TOOL_ROUNDS /\
    Forall (fun rd => is_tool_use (fst rd) = true /\
                      map tool_use_id (snd rd) = tool_use_ids (content (fst rd)) /\
                      exists log, snd rd = map result_of (tool_outcomes tm log (content (fst rd))))
      rounds /\
    map fst rounds = removelast (r :: replies client (calls s) reqs) /\
    r_f = last (r :: replies client (calls s) reqs) r /\
    Forall (fun rd => existsb flagged (snd rd) = false) (removelast rounds) /\
    (forall i q rd, nth_error reqs i = Some q -> nth_error rounds i = Some rd ->
       q = round_request (heap s l ++ flat_map round_msgs (firstn (S i) rounds))
             sys tools (rc + S i) (snd rd)) /\
    ((rounds <> [] /\ existsb flagged (snd (last rounds (r, []))) = true) \/
     guard n r_f = false \/ length rounds = fuel).
Proof.
  revert rc r s.
  induction fuel as [|fuel IH]; intros rc r s H.
  - (* no fuel: the loop returns at once whatever the guard *)
    assert (E : tool_loop client model 0 rc l sys tools tm r s = ((r, rc), s))
      by (simpl; destruct (is_tool_use r && Nat.ltb rc MAX_TOOL_ROUNDS); reflexivity).
    rewrite E in H. inversion H; subst.
    exists [], []. simpl. rewrite !app_nil_r.
    repeat split; auto; try lia.
    + intros i q rd Hq. destruct i; discriminate.
  - destruct (guard rc r) eqn:G.
    2:{ rewrite tool_loop_exit in H by exact G. inversion H; subst.
        exists [], []. simpl. rewrite !app_nil_r.
        repeat split; auto; try lia.
        intros i q rd Hq. destruct i; discriminate. }
    rewrite tool_loop_step in H by exact G.
    pose proof (tool_round_eq client model (rc + 1) l sys tools tm r s) as R.
    simpl in R.
    set (outs := tool_outcomes tm (tool_log s) (content r)) in *.
    set (res := map result_of outs) in *.
    set (q := params model (heap s l ++ round_msgs (r, res)) sys
                (if negb (existsb outcome_raised outs) && Nat.ltb (rc + 1) MAX_TOOL_ROUNDS
                 then Some tools else None)) in *.
    rewrite R in H. clear R.
    assert (Hq : q = round_request (heap s l ++ round_msgs (r, res)) sys tools (rc + 1) res).
    { unfold q, round_request, res, outs. now rewrite flagged_raised. }
    assert (Hok : is_tool_use r = true /\ map tool_use_id res = tool_use_ids (content r) /\
                  exists log, res = map result_of (tool_outcomes tm log (content r))).
    { unfold guard in G. apply andb_true_iff in G. split; [apply G|].
      split; [apply result_ids|]. exists (tool_log s). reflexivity. }
    assert (Hrc : rc < MAX_TOOL_ROUNDS).
    { unfold guard in G. apply andb_true_iff in G. apply Nat.ltb_lt, G. }
    destruct (existsb outcome_raised outs) eqn:He.
    + (* the round errored: the loop breaks after its call *)
      inversion H; subst. clear H.
      exists [(r, res)], [q]. simpl.
      rewrite upd_same, !app_nil_r.
      repeat split; auto; try lia.
      * intros l' Hl'. rewrite !upd_other by exact Hl'. reflexivity.
      * intros i q' rd Hq' Hrd. destruct i as [|i]; simpl in Hq', Hrd;
          [|destruct i; discriminate].
        inversion Hq'; inversion Hrd; subst. rewrite Hq.
        replace (rc + 1) with (rc + 1) by lia. simpl. rewrite ?app_nil_r.
        reflexivity.
      * left. split; [discriminate|]. simpl. unfold res, outs.
        rewrite flagged_raised. exact He.
    + (* no error: the loop goes on *)
      apply IH in H.
      destruct H as (rounds & reqs & Hh & Hoth & Hnext & Hcalls & Hlog & Hlen & Hn &
                     Hbound & Hall & Hfst & Hlast & Herr & Hreq & Hexit).
      simpl in *.
      exists ((r, res) :: rounds), (q :: reqs).
      rewrite upd_same in Hh.
      repeat split.
      * rewrite Hh. simpl. now rewrite <- app_assoc.
      * intros l' Hl'. rewrite Hoth by exact Hl'. rewrite !upd_other by exact Hl'.
        reflexivity.
      * exact Hnext.
      * rewrite Hcalls. now rewrite <- app_assoc.
      * rewrite Hlog. now rewrite <- app_assoc.
      * simpl. now rewrite Hlen.
      * simpl. lia.
      * simpl. lia.
      * constructor; assumption.
      * simpl. rewrite Hfst. destruct reqs; reflexivity.
      * rewrite Hlast. simpl. apply last_default_irrel.
      * destruct rounds as [|rd0 rounds'].
        -- constructor.
        -- simpl. constructor; [|exact Herr]. simpl. unfold res, outs.
           rewrite flagged_raised. exact He.
      * intros i q' rd Hq' Hrd. destruct i as [|i]; simpl in Hq', Hrd.
        -- inversion Hq'; inversion Hrd; subst. rewrite Hq. simpl.
           rewrite ?app_nil_r. reflexivity.
        -- rewrite (Hreq i q' rd Hq' Hrd).
           simpl. rewrite upd_same, <- app_assoc.
           replace (rc + 1 + S i) with (rc + S (S i)) by lia. reflexivity.
      * destruct Hexit as [[Hne Hfl] | [Hg | Hf]].
        -- left. split; [discriminate|].
           destruct rounds as [|rd0 rounds']; [contradiction|].
           rewrite last_cons_cons,
             (last_default_irrel rd0 rounds' _ (client (calls s) q, [])).
           exact Hfl.
        -- right; left. exact Hg.
        -- right; right. simpl. now rewrite Hf.
Qed.

End Loop.

Lemma nth_error_same_length {A B} (a : list A) (b : list B) i x :
  length a = length b -> nth_error a i = Some x -> exists y, nth_error b i = Some y.
Proof.
  intros Hl Hx. destruct (nth_error b i) as [y|] eqn:E; [now exists y|].
  apply nth_error_None in E. assert (i < length a) by (apply nth_error_Some; congruence).
  lia.
Qed.

Lemma nth_error_removelast {A} (l : list A) k x :
  nth_error l k = Some x -> S k < length l -> nth_error (removelast l) k = Some x.
Proof.
  revert k. induction l as [|a l IH]; intros k Hx Hk; [destruct k; discriminate|].
  destruct l as [|b l]; simpl in Hk; [lia|].
  destruct k as [|k]; simpl in *; [exact Hx|].
  apply IH; [exact Hx|simpl; lia].
Qed.

Lemma results_typed tm log bs :
  Forall (fun t => tr_type t = "tool_result") (map result_of (tool_outcomes tm log bs)).
Proof.
  revert log. induction bs as [|b bs IH]; intros log; simpl; [constructor|].
  destruct b; auto.
  destruct (execute_tool tm log name input); simpl; constructor; auto.
Qed.

Section Wrappers.
Variable client : list request -> request -> response.
Variable model : string.

Lemma handle_tool_loop_eq r l sys ts tm s :
  let l' := next_loc s in
  let s1 := mk_state (upd (heap s) l' (heap s l)) (S l') (calls s) (tool_log s) in
  _handle_tool_loop client model r l sys ts tm s =
  let '((r_f, _), s_f) := tool_loop client model MAX_TOOL_ROUNDS 0 l' sys ts tm r s1 in
  (_extract_text_response r_f, s_f).
Proof.
  intros l' s1. unfold _handle_tool_loop, copy, bind, read, alloc.
  cbv beta iota zeta. fold l' s1.
  destruct (tool_loop client model MAX_TOOL_ROUNDS 0 l' sys ts tm r s1) as [[r_f n] s_f].
  reflexivity.
Qed.

Lemma generate_response_eq query hist tools otm s :
  let sys := system_content_of hist in
  let l := next_loc s in
  let q0 := params model [mk_message "user" (Plain query)] sys
              (if tools_truthy tools then tools else None) in
  let s2 := mk_state (upd (heap s) l [mk_message "user" (Plain query)]) (S l)
              (calls s ++ [q0]) (tool_log s) in
  let r0 := client (calls s) q0 in
  generate_response client model query hist tools otm s =
  if is_tool_use r0 then
    match otm, tools with
    | Some tm, Some ((_ :: _) as ts) => _handle_tool_loop client model r0 l sys ts tm s2
    | _, _ => (_extract_text_response r0, s2)
    end
  else (_extract_text_response r0, s2).
Proof.
  intros sys l q0 s2 r0.
  unfold generate_response, bind, alloc, read, messages_create.
  cbv beta iota zeta. cbn [heap next_loc calls tool_log]. rewrite upd_same.
  fold sys l q0 r0 s2.
  destruct (is_tool_use r0); [|reflexivity].
  destruct otm as [tm|]; [|reflexivity].
  destruct tools as [[|t ts]|]; reflexivity.
Qed.

End Wrappers.

(** ** The claims *)

(** C10: for every response, [_extract_text_response] returns the text of
    the first block of type "text", whatever tool-use blocks precede it and
    whatever text blocks follow it, and the empty string when there is no
    text block.  It is a total function, so it never raises. *)
Theorem extract_text_response_first_text (r : response) :
  (forall pre t post,
     content r = pre ++ TextBlock t :: post ->
     (forall t', ~ In (TextBlock t') pre) ->
     _extract_text_response r = t) /\
  ((forall t, ~ In (TextBlock t) (content r)) -> _extract_text_response r = "").
Proof.
  unfold _extract_text_response. split.
  - intros pre t post Hc Hpre. rewrite Hc. clear Hc.
    induction pre as [|b pre IH]; [reflexivity|].
    destruct b; simpl.
    + exfalso. apply (Hpre text). now left.
    + apply IH. intros t' Ht'. apply (Hpre t'). now right.
    + apply IH. intros t' Ht'. apply (Hpre t'). now right.
  - apply first_text_no_text.
Qed.

Section Claims.
Variable client : list request -> request -> response.
Variable model : string.

(** The request [generate_response] makes first. *)
Definition initial_request (query : string) (hist : option string)
  (tools : option (list tool_def)) : request :=
  params model [mk_message "user" (Plain query)] (system_content_of hist)
    (if tools_truthy tools then tools else None).

(** C6: when the first response does not stop for tool use,
    [generate_response] makes no model call after the first one, invokes
    no tool, and returns exactly the text of that response. *)
Theorem generate_response_no_tool_use query hist tools otm s :
  let q0 := initial_request query hist tools in
  let r0 := client (calls s) q0 in
  is_tool_use r0 = false ->
  let '(text, s') := generate_response client model query hist tools otm s in
  text = _extract_text_response r0 /\
  calls s' = calls s ++ [q0] /\
  tool_log s' = tool_log s.
Proof.
  intros q0 r0 H.
  rewrite generate_response_eq. fold (initial_request query hist tools) q0 r0.
  rewrite H. simpl. auto.
Qed.

(** C9: when the first response stops for tool use but the caller gave no
    tool manager or no (or an empty) tools list, [generate_response] does
    not enter the tool loop: no tool runs, no further model call is made,
    and it returns the first text block's text, the empty string if the
    response has no text block. *)
Theorem generate_response_tool_use_without_tools query hist tools otm s :
  let q0 := initial_request query hist tools in
  let r0 := client (calls s) q0 in
  is_tool_use r0 = true ->
  (otm = None \/ tools_truthy tools = false) ->
  let '(text, s') := generate_response client model query hist tools otm s in
  text = first_text (content r0) /\
  ((forall t, ~ In (TextBlock t) (content r0)) -> text = "") /\
  calls s' = calls s ++ [q0] /\
  tool_log s' = tool_log s.
Proof.
  intros q0 r0 H Hno.
  rewrite generate_response_eq. fold (initial_request query hist tools) q0 r0.
  rewrite H.
  destruct Hno as [Ho | Ht].
  - subst otm. simpl. repeat split; auto. apply first_text_no_text.
  - destruct tools as [[|t ts]|]; try discriminate Ht;
      destruct otm; simpl; repeat split; auto; apply first_text_no_text.
Qed.

(** C1: the [while] loop of [_handle_tool_loop], started as the source
    starts it (round counter 0), makes exactly [round_count] model calls
    and ends with [round_count <= MAX_TOOL_ROUNDS]; so [generate_response],
    which makes one call before the loop, makes [n + 1] calls in all for
    some [n <= MAX_TOOL_ROUNDS], whatever the provider answers (every
    function here is total: the loop terminates). *)
Theorem tool_calls_bounded :
  (forall l sys ts tm r s r_f n s_f,
     tool_loop client model MAX_TOOL_ROUNDS 0 l sys ts tm r s = ((r_f, n), s_f) ->
     length (calls s_f) = length (calls s) + n /\ n <= MAX_TOOL_ROUNDS) /\
  (forall query hist tools otm s,
     let s_f := snd (generate_response client model query hist tools otm s) in
     exists n, n <= MAX_TOOL_ROUNDS /\
               length (calls s_f) = length (calls s) + (n + 1)).
Proof.
  assert (Loop : forall l sys ts tm r s r_f n s_f,
     tool_loop client model MAX_TOOL_ROUNDS 0 l sys ts tm r s = ((r_f, n), s_f) ->
     length (calls s_f) = length (calls s) + n /\ n <= MAX_TOOL_ROUNDS).
  { intros l sys ts tm r s r_f n s_f H.
    apply tool_loop_trace in H.
    destruct H as (rounds & reqs & _ & _ & _ & Hcalls & _ & Hlen & Hn & Hbound & _).
    rewrite Hcalls, length_app. simpl in Hbound. split; lia. }
  split; [exact Loop|].
  intros query hist tools otm s s_f. unfold s_f. clear s_f.
  rewrite generate_response_eq.
  set (q0 := params model _ _ _). set (r0 := client (calls s) q0).
  set (s2 := mk_state _ _ (calls s ++ [q0]) _).
  assert (Direct : exists n, n <= MAX_TOOL_ROUNDS /\
            length (calls s2) = length (calls s) + (n + 1)).
  { exists 0. unfold s2. simpl. rewrite length_app. simpl. split; [unfold MAX_TOOL_ROUNDS|]; lia. }
  destruct (is_tool_use r0); [|exact Direct].
  destruct otm as [tm|]; [|exact Direct].
  destruct tools as [[|t ts]|]; try exact Direct.
  rewrite handle_tool_loop_eq.
  destruct (tool_loop client model MAX_TOOL_ROUNDS 0 _ _ _ tm r0 _) as [[r_f n] s_f] eqn:E.
  apply Loop in E. destruct E as [Hc Hn].
  exists n. split; [exact Hn|]. simpl. rewrite Hc. simpl.
  unfold s2. simpl. rewrite length_app. simpl. lia.
Qed.

(** C2: in a round whose counter (after [round_count += 1]) is [rc], the
    follow-up request carries [tools] and [tool_choice = auto] exactly when
    no invocation of the round raised and [rc < MAX_TOOL_ROUNDS], and
    carries neither otherwise; so the call after round [MAX_TOOL_ROUNDS]
    never offers tools, and in a run of the loop from counter 0 the
    request of the last allowed round offers none. *)
Theorem follow_up_offers_tools :
  (forall rc l sys ts tm r s,
     let outs := tool_outcomes tm (tool_log s) (content r) in
     let '((r', has_error), s') := tool_round client model rc l sys ts tm r s in
     has_error = existsb outcome_raised outs /\
     exists q, calls s' = calls s ++ [q] /\ r' = client (calls s) q /\
       ((req_tools q = Some ts /\ req_tool_choice q = Some "auto") <->
        (existsb outcome_raised outs = false /\ rc < MAX_TOOL_ROUNDS)) /\
       ((req_tools q = None /\ req_tool_choice q = None) <->
        ~ (existsb outcome_raised outs = false /\ rc < MAX_TOOL_ROUNDS)) /\
       (rc = MAX_TOOL_ROUNDS -> req_tools q = None /\ req_tool_choice q = None)) /\
  (forall l sys ts tm r s r_f n s_f,
     tool_loop client model MAX_TOOL_ROUNDS 0 l sys ts tm r s = ((r_f, n), s_f) ->
     exists reqs, calls s_f = calls s ++ reqs /\
       forall q, nth_error reqs (MAX_TOOL_ROUNDS - 1) = Some q ->
                 req_tools q = None /\ req_tool_choice q = None).
Proof.
  split.
  - intros rc l sys ts tm r s outs.
    rewrite tool_round_eq. fold outs. split; [reflexivity|].
    eexists. split; [reflexivity|]. split; [reflexivity|]. simpl.
    destruct (existsb outcome_raised outs); simpl.
    + split; [split; [intros [H1 _]; discriminate | intros [H1 _]; discriminate]|].
      split; [split; [intros _ [H1 _]; discriminate | intros _; split; reflexivity]|].
      intros _. split; reflexivity.
    + destruct (Nat.ltb_spec rc MAX_TOOL_ROUNDS) as [Hlt|Hge]; simpl.
      * split; [split; [intros _; split; [reflexivity|exact Hlt] | intros _; split; reflexivity]|].
        split; [split; [intros [H1 _]; discriminate | intros H; exfalso; apply H; split; [reflexivity|exact Hlt]]|].
        intros E. unfold MAX_TOOL_ROUNDS in *. lia.
      * split; [split; [intros [H1 _]; discriminate | intros [_ H1]; lia]|].
        split; [split; [intros _ [_ H1]; lia | intros _; split; reflexivity]|].
        intros _. split; reflexivity.
  - intros l sys ts tm r s r_f n s_f H.
    apply tool_loop_trace in H.
    destruct H as (rounds & reqs & _ & _ & _ & Hcalls & _ & Hlen & _ & _ & _ & _ & _ &
                   _ & Hreq & _).
    exists reqs. split; [exact Hcalls|].
    intros q Hq.
    destruct (nth_error_same_length reqs rounds _ q (eq_sym (eq_sym Hlen)) Hq) as [rd Hrd].
    rewrite (Hreq _ q rd Hq Hrd). unfold round_request. simpl.
    destruct (negb (existsb flagged (snd rd))); simpl; auto.
Qed.

(** C3: every message list the loop builds is the caller's messages
    followed, round by round, by the assistant message holding the
    tool-requesting response's content and then one user message whose
    content is the list of tool results: one "tool_result" per tool-use
    block of that content, in order, with the block's id as
    [tool_use_id] (other blocks give none).  Each request the loop sends
    carries the list as it stands after its round. *)
Theorem tool_loop_message_shape fuel rc l sys ts tm r s r_f n s_f :
  tool_loop client model fuel rc l sys ts tm r s = ((r_f, n), s_f) ->
  exists rounds reqs,
    heap s_f l = heap s l ++ flat_map round_msgs rounds /\
    Forall (fun rd => map tool_use_id (snd rd) = tool_use_ids (content (fst rd)) /\
                      Forall (fun t => tr_type t = "tool_result") (snd rd)) rounds /\
    map fst rounds = removelast (r :: replies client (calls s) reqs) /\
    calls s_f = calls s ++ reqs /\
    (forall i q, nth_error reqs i = Some q ->
       req_messages q = heap s l ++ flat_map round_msgs (firstn (S i) rounds)).
Proof.
  intros H. apply tool_loop_trace in H.
  destruct H as (rounds & reqs & Hh & _ & _ & Hcalls & _ & Hlen & _ & _ & Hall & Hfst & _ &
                 _ & Hreq & _).
  exists rounds, reqs. repeat split; auto.
  - eapply Forall_impl; [|exact Hall]. intros rd (_ & Hids & log & Hres).
    split; [exact Hids|]. rewrite Hres. apply results_typed.
  - intros i q Hq.
    destruct (nth_error_same_length reqs rounds _ q (eq_sym (eq_sym Hlen)) Hq) as [rd Hrd].
    rewrite (Hreq _ q rd Hq Hrd). reflexivity.
Qed.

(** C4: when an invocation of a round raises [e], the exception becomes
    the tool result [{tool_use_id, "Error: " + str(e), is_error: True}] of
    that round's user message, and the loop returns right after exactly one
    more model call, which offers no tools, whatever that response's stop
    reason. *)
Theorem tool_error_final_call fuel rc l sys ts tm r s id e r_f n s_f :
  guard rc r = true ->
  In (id, Raised e) (tool_outcomes tm (tool_log s) (content r)) ->
  tool_loop client model (S fuel) rc l sys ts tm r s = ((r_f, n), s_f) ->
  let res := map result_of (tool_outcomes tm (tool_log s) (content r)) in
  In (mk_tool_result "tool_result" id ("Error: " ++ e)%string (Some true)) res /\
  heap s_f l = heap s l ++ round_msgs (r, res) /\
  exists q, calls s_f = calls s ++ [q] /\
            req_tools q = None /\ req_tool_choice q = None /\
            r_f = client (calls s) q /\ n = rc + 1.
Proof.
  intros G Hin H res.
  assert (He : existsb outcome_raised (tool_outcomes tm (tool_log s) (content r)) = true).
  { apply existsb_exists. now exists (id, Raised e). }
  rewrite tool_loop_step in H by exact G.
  rewrite tool_round_eq in H. simpl in H. rewrite He in H. simpl in H.
  inversion H; subst; clear H.
  split; [|split].
  - unfold res. change (mk_tool_result "tool_result" id ("Error: " ++ e)%string (Some true))
      with (result_of (id, Raised e)). now apply in_map.
  - simpl. now rewrite upd_same.
  - eexists. repeat split; reflexivity.
Qed.

(** C5: if a result of round [k + 1] (index [k]) of the loop started at
    counter 0 is flagged as an error, which happens exactly when one of
    that round's invocations raised, the loop returns with
    [round_count = k + 1] after exactly [k + 1] model calls and no later
    round; that round's message still holds a result for every tool-use
    block of the batch, the successful ones included. *)
Theorem tool_error_stops_rounds l sys ts tm r s r_f n s_f :
  tool_loop client model MAX_TOOL_ROUNDS 0 l sys ts tm r s = ((r_f, n), s_f) ->
  exists rounds reqs,
    heap s_f l = heap s l ++ flat_map round_msgs rounds /\
    calls s_f = calls s ++ reqs /\
    forall k rd, nth_error rounds k = Some rd ->
      (exists log, snd rd = map result_of (tool_outcomes tm log (content (fst rd))) /\
                   existsb flagged (snd rd) =
                   existsb outcome_raised (tool_outcomes tm log (content (fst rd)))) /\
      map tool_use_id (snd rd) = tool_use_ids (content (fst rd)) /\
      (existsb flagged (snd rd) = true ->
       n = S k /\ length reqs = S k /\ length rounds = S k).
Proof.
  intros H. apply tool_loop_trace in H.
  destruct H as (rounds & reqs & Hh & _ & _ & Hcalls & _ & Hlen & Hn & _ & Hall & _ & _ &
                 Herr & _ & _).
  exists rounds, reqs. split; [exact Hh|]. split; [exact Hcalls|].
  intros k rd Hrd.
  pose proof (proj1 (Forall_forall _ _) Hall rd (nth_error_In _ _ Hrd))
    as (_ & Hids & log & Hres).
  split; [exists log; split; [exact Hres|]; rewrite Hres; apply flagged_raised|].
  split; [exact Hids|].
  intros Hfl.
  assert (Hk : k < length rounds) by (apply nth_error_Some; congruence).
  assert (Hlast : S k = length rounds).
  { destruct (Nat.eq_dec (S k) (length rounds)) as [E|E]; [exact E|].
    exfalso.
    assert (Hr : nth_error (removelast rounds) k = Some rd)
      by (apply nth_error_removelast; [exact Hrd|lia]).
    pose proof (proj1 (Forall_forall _ _) Herr rd (nth_error_In _ _ Hr)) as Hno.
    simpl in Hno. congruence. }
  simpl in Hn. lia.
Qed.

(** C8: [_handle_tool_loop] appends only to its own copy: every list object
    that existed before the call, the caller's message list among them, has
    the same contents when it returns. *)
Theorem handle_tool_loop_frame r l sys ts tm s l0 :
  l0 < next_loc s ->
  heap (snd (_handle_tool_loop client model r l sys ts tm s)) l0 = heap s l0.
Proof.
  intros Hl0. rewrite handle_tool_loop_eq.
  destruct (tool_loop client model MAX_TOOL_ROUNDS 0 (next_loc s) sys ts tm r _)
    as [[r_f n] s_f] eqn:E.
  apply tool_loop_trace in E.
  destruct E as (rounds & reqs & _ & Hoth & _).
  simpl. rewrite Hoth by lia. simpl. apply upd_other. lia.
Qed.

(** C7, as the code behaves: when the loop stops at [MAX_TOOL_ROUNDS] with
    a response that still stops for tool use, [_handle_tool_loop] returns
    the text of that response's first text block; in particular it returns
    the empty string when the response has no text block. *)
Theorem exhausted_rounds_text r l sys ts tm s r_f n s_f :
  tool_loop client model MAX_TOOL_ROUNDS 0 (fst (copy l s)) sys ts tm r
    (snd (copy l s)) = ((r_f, n), s_f) ->
  n = MAX_TOOL_ROUNDS -> is_tool_use r_f = true ->
  fst (_handle_tool_loop client model r l sys ts tm s) = first_text (content r_f) /\
  ((forall t, ~ In (TextBlock t) (content r_f)) ->
   fst (_handle_tool_loop client model r l sys ts tm s) = "").
Proof.
  intros H _ _. rewrite handle_tool_loop_eq.
  change (fst (copy l s)) with (next_loc s) in H.
  change (snd (copy l s)) with
    (mk_state (upd (heap s) (next_loc s) (heap s l)) (S (next_loc s)) (calls s) (tool_log s)) in H.
  rewrite H. simpl. split; [reflexivity|]. apply first_text_no_text.
Qed.

End Claims.

(** ** Further properties of [ai_generator.py] *)

Lemma firstn_S_nth {A} (xs : list A) i x :
  nth_error xs i = Some x -> firstn (S i) xs = firstn i xs ++ [x].
Proof.
  revert i. induction xs as [|y xs IH]; intros i H; [destruct i; discriminate|].
  destruct i as [|i]; simpl in *.
  - now inversion H.
  - f_equal. now apply IH.
Qed.

Lemma length_flat_map_round_msgs rounds :
  length (flat_map round_msgs rounds) = 2 * length rounds.
Proof.
  induction rounds as [|rd rounds IH]; [reflexivity|].
  simpl. rewrite IH. lia.
Qed.

Section Extras.
Variable client : list request -> request -> response.
Variable model : string.

(** A whole run of [generate_response]: the first request, then the
    requests and rounds of the tool loop if it was entered. *)
Lemma generate_response_trace query hist tools otm s :
  let sys := system_content_of hist in
  let um := [mk_message "user" (Plain query)] in
  let q0 := initial_request model query hist tools in
  let r0 := client (calls s) q0 in
  let '(text, s_f) := generate_response client model query hist tools otm s in
  exists rounds reqs ts,
    calls s_f = calls s ++ q0 :: reqs /\
    length reqs = length rounds /\
    length rounds <= MAX_TOOL_ROUNDS /\
    tool_log s_f = tool_log s ++ flat_map (fun rd => tool_invocations (content (fst rd))) rounds /\
    Forall (fun rd => is_tool_use (fst rd) = true) rounds /\
    map fst rounds = removelast (r0 :: replies client (calls s ++ [q0]) reqs) /\
    (forall i q rd, nth_error reqs i = Some q -> nth_error rounds i = Some rd ->
       q = round_request model (um ++ flat_map round_msgs (firstn (S i) rounds)) sys ts
             (S i) (snd rd)) /\
    (forall l, l < next_loc s -> heap s_f l = heap s l) /\
    heap s_f (next_loc s) = um /\
    text = first_text (content (last (r0 :: replies client (calls s ++ [q0]) reqs) r0)) /\
    ((rounds = [] /\ reqs = [] /\
      (is_tool_use r0 = false \/ otm = None \/ tools_truthy tools = false)) \/
     (rounds <> [] /\ is_tool_use r0 = true /\ otm <> None /\ tools = Some ts /\
      tools_truthy tools = true)).
Proof.
  intros sys um q0 r0.
  rewrite generate_response_eq. fold (initial_request model query hist tools) q0 r0.
  set (s2 := mk_state (upd (heap s) (next_loc s) [mk_message "user" (Plain query)])
               (S (next_loc s)) (calls s ++ [q0]) (tool_log s)).
  assert (Direct : exists rounds reqs ts,
    calls s2 = calls s ++ q0 :: reqs /\
    length reqs = length rounds /\
    length rounds <= MAX_TOOL_ROUNDS /\
    tool_log s2 = tool_log s ++ flat_map (fun rd => tool_invocations (content (fst rd))) rounds /\
    Forall (fun rd => is_tool_use (fst rd) = true) rounds /\
    map fst rounds = removelast (r0 :: replies client (calls s ++ [q0]) reqs) /\
    (forall i q rd, nth_error reqs i = Some q -> nth_error rounds i = Some rd ->
       q = round_request model (um ++ flat_map round_msgs (firstn (S i) rounds)) sys ts
             (S i) (snd rd)) /\
    (forall l, l < next_loc s -> heap s2 l = heap s l) /\
    heap s2 (next_loc s) = um /\
    _extract_text_response r0 =
      first_text (content (last (r0 :: replies client (calls s ++ [q0]) reqs) r0)) /\
    rounds = [] /\ reqs = []).
  { exists [], [], []. simpl. rewrite app_nil_r.
    repeat split; auto; try (unfold MAX_TOOL_ROUNDS; lia).
    - intros i q rd Hq. destruct i; discriminate.
    - intros l Hl. apply upd_other. lia.
    - apply upd_same. }
  assert (Hd : is_tool_use r0 = false \/ otm = None \/ tools_truthy tools = false ->
    exists rounds reqs ts,
    calls s2 = calls s ++ q0 :: reqs /\
    length reqs = length rounds /\
    length rounds <= MAX_TOOL_ROUNDS /\
    tool_log s2 = tool_log s ++ flat_map (fun rd => tool_invocations (content (fst rd))) rounds /\
    Forall (fun rd => is_tool_use (fst rd) = true) rounds /\
    map fst rounds = removelast (r0 :: replies client (calls s ++ [q0]) reqs) /\
    (forall i q rd, nth_error reqs i = Some q -> nth_error rounds i = Some rd ->
       q = round_request model (um ++ flat_map round_msgs (firstn (S i) rounds)) sys ts
             (S i) (snd rd)) /\
    (forall l, l < next_loc s -> heap s2 l = heap s l) /\
    heap s2 (next_loc s) = um /\
    _extract_text_response r0 =
      first_text (content (last (r0 :: replies client (calls s ++ [q0]) reqs) r0)) /\
    ((rounds = [] /\ reqs = [] /\
      (is_tool_use r0 = false \/ otm = None \/ tools_truthy tools = false)) \/
     (rounds <> [] /\ is_tool_use r0 = true /\ otm <> None /\ tools = Some ts /\
      tools_truthy tools = true))).
  { intros Hc.
    destruct Direct as (rounds & reqs & ts & H1 & H2 & H3 & H4 & H5 & H6 & H7 & H8 & H9 &
                        H10 & Hr & Hq).
    exists rounds, reqs, ts. repeat (split; [assumption|]). left. auto. }
  destruct (is_tool_use r0) eqn:Ht; [|apply Hd; auto].
  destruct otm as [tm|]; [|apply Hd; auto].
  destruct tools as [[|t ts]|]; [apply Hd; auto | | apply Hd; auto].
  clear Direct Hd.
  rewrite handle_tool_loop_eq.
  destruct (tool_loop client model MAX_TOOL_ROUNDS 0 (next_loc s2) (system_content_of hist)
              (t :: ts) tm r0 (mk_state (upd (heap s2) (next_loc s2) (heap s2 (next_loc s)))
                 (S (next_loc s2)) (calls s2) (tool_log s2)))
    as [[r_f n] s_f] eqn:E.
  apply tool_loop_trace in E.
  destruct E as (rounds & reqs & Hh & Hoth & Hnext & Hcalls & Hlog & Hlen & Hn &
                 Hbound & Hall & Hfst & Hlast & Herr & Hreq & Hexit).
  cbn [heap next_loc calls tool_log] in Hcalls, Hlog, Hbound, Hfst, Hlast, Hreq, Hoth.
  unfold s2 in Hcalls, Hlog, Hfst, Hlast; cbn [calls tool_log] in Hcalls, Hlog, Hfst, Hlast.
  assert (Hcopy : upd (heap s2) (next_loc s2) (heap s2 (next_loc s)) (next_loc s2) = um).
  { rewrite upd_same. unfold s2. simpl. apply upd_same. }
  cbv beta iota.
  exists rounds, reqs, (t :: ts).
  split; [rewrite Hcalls; now rewrite <- app_assoc|].
  split; [exact Hlen|].
  split; [exact Hbound|].
  split; [exact Hlog|].
  split; [eapply Forall_impl; [|exact Hall]; intros rd [H _]; exact H|].
  split; [exact Hfst|].
  split.
  { intros i q rd Hq Hrd. rewrite (Hreq i q rd Hq Hrd). now rewrite Hcopy. }
  split.
  { intros l Hl. rewrite Hoth by (unfold s2; simpl; lia). simpl.
    rewrite upd_other by (unfold s2; simpl; lia). unfold s2. simpl. apply upd_other. lia. }
  split.
  { rewrite Hoth by (unfold s2; simpl; lia). simpl.
    rewrite upd_other by (unfold s2; simpl; lia). unfold s2. simpl. apply upd_same. }
  split; [unfold _extract_text_response; now rewrite Hlast|].
  right. split; [|repeat split; auto; discriminate].
  intros Hnil. subst rounds. simpl in Hlen.
  destruct Hexit as [[Hne _] | [Hg | Hf]]; [contradiction| |discriminate].
  destruct reqs; [|discriminate]. simpl in Hlast, Hn. subst.
  unfold guard in Hg. now rewrite Ht in Hg.
Qed.

Lemma tool_outcomes_from_manager tm log bs id o :
  In (id, o) (tool_outcomes tm log bs) ->
  exists log' name input, o = execute_tool tm log' name input.
Proof.
  revert log. induction bs as [|b bs IH]; intros log H; [destruct H|].
  destruct b; simpl in H; try (eapply IH; exact H).
  destruct H as [H|H]; [|eapply IH; exact H].
  inversion H; subst. eauto.
Qed.

Lemma tool_outcomes_nil tm log bs :
  tool_invocations bs = [] -> tool_outcomes tm log bs = [].
Proof.
  induction bs as [|b bs IH]; intros H; [reflexivity|].
  destruct b; simpl in *; [apply IH; exact H|discriminate|apply IH; exact H].
Qed.

Lemma length_tool_outcomes tm log bs :
  length (tool_outcomes tm log bs) = length (tool_invocations bs).
Proof.
  revert log. induction bs as [|b bs IH]; intros log; [reflexivity|].
  destruct b; simpl; auto.
Qed.

Lemma results_flag_shape tm log bs t :
  In t (map result_of (tool_outcomes tm log bs)) ->
  is_error t = None \/ is_error t = Some true.
Proof.
  intros H. apply in_map_iff in H. destruct H as [[id o] [<- _]].
  destruct o; simpl; auto.
Qed.

(** [_execute_tools] invokes the tool manager once per tool-use block, in
    block order, also after an earlier invocation raised, and does nothing
    else: no model call, no list object touched.  It returns one result per
    tool-use block. *)
Theorem execute_tools_runs_every_block r tm s :
  let '((results, has_error), s') := _execute_tools r tm s in
  tool_log s' = tool_log s ++ tool_invocations (content r) /\
  calls s' = calls s /\ heap s' = heap s /\ next_loc s' = next_loc s /\
  length results = length (tool_invocations (content r)).
Proof.
  rewrite execute_tools_eq. simpl. repeat split.
  now rewrite length_map, length_tool_outcomes.
Qed.

(** The flag [_execute_tools] returns is [True] exactly when one of the
    returned results carries [is_error], which happens exactly when an
    invocation raised; results carry either no [is_error] key or
    [is_error: True], and their ids are those of the tool-use blocks in
    order. *)
Theorem execute_tools_error_flag r tm s :
  let '((results, has_error), s') := _execute_tools r tm s in
  has_error = existsb flagged results /\
  has_error = existsb outcome_raised (tool_outcomes tm (tool_log s) (content r)) /\
  (forall t, In t results -> is_error t = None \/ is_error t = Some true) /\
  map tool_use_id results = tool_use_ids (content r).
Proof.
  rewrite execute_tools_eq. simpl. split; [now rewrite flagged_raised|].
  split; [reflexivity|]. split; [apply results_flag_shape|apply result_ids].
Qed.

(** Every request [generate_response] makes (one to three of them) uses
    the base parameters ([self.model], temperature 0, 800 max tokens) and
    the same system content; a request offers tools only together with
    [tool_choice = auto], and the tools it offers are always the caller's
    own non-empty [tools] list. *)
Theorem generate_response_request_params query hist tools otm s :
  let '(text, s_f) := generate_response client model query hist tools otm s in
  exists reqs, calls s_f = calls s ++ reqs /\ 1 <= length reqs <= 3 /\
    Forall (fun q => req_model q = model /\ req_temperature q = 0 /\
                     req_max_tokens q = 800 /\ req_system q = system_content_of hist /\
                     (req_tool_choice q = Some "auto" <-> req_tools q <> None) /\
                     (req_tool_choice q = None <-> req_tools q = None) /\
                     (forall l, req_tools q = Some l -> tools = Some l /\ l <> []))
      reqs.
Proof.
  pose proof (generate_response_trace query hist tools otm s) as T. simpl in T.
  destruct (generate_response client model query hist tools otm s) as [text s_f].
  destruct T as (rounds & reqs & ts & Hc & Hlen & Hb & _ & _ & _ & Hreq & _ & _ & _ & Hentry).
  exists (initial_request model query hist tools :: reqs).
  split; [exact Hc|]. split; [simpl; unfold MAX_TOOL_ROUNDS in Hb; lia|].
  assert (Gen : forall msgs o, (forall l, o = Some l -> tools = Some l /\ l <> []) ->
            let q := params model msgs (system_content_of hist) o in
            req_model q = model /\ req_temperature q = 0 /\
            req_max_tokens q = 800 /\ req_system q = system_content_of hist /\
            (req_tool_choice q = Some "auto" <-> req_tools q <> None) /\
            (req_tool_choice q = None <-> req_tools q = None) /\
            (forall l, req_tools q = Some l -> tools = Some l /\ l <> [])).
  { intros msgs o Ho q. unfold q, params. simpl.
    destruct o as [l|]; simpl; (split; [reflexivity|]); (split; [reflexivity|]);
      (split; [reflexivity|]); (split; [reflexivity|]).
    - split; [split; [intros _; discriminate | intros _; reflexivity]|].
      split; [split; discriminate|]. apply Ho.
    - split; [split; [discriminate | intros H; contradiction]|].
      split; [split; reflexivity|]. discriminate. }
  constructor.
  - apply Gen. intros l Hl.
    destruct tools as [[|t ts']|]; simpl in Hl; try discriminate.
    inversion Hl. split; [reflexivity|discriminate].
  - apply Forall_forall. intros q Hq.
    apply In_nth_error in Hq. destruct Hq as [i Hq].
    destruct (nth_error_same_length reqs rounds _ q (eq_sym (eq_sym Hlen)) Hq) as [rd Hrd].
    rewrite (Hreq i q rd Hq Hrd). unfold round_request.
    destruct Hentry as [(Hr & _) | (Hne & _ & _ & Ht & Htr)].
    + subst rounds. destruct i; discriminate.
    + apply Gen. intros l Hl.
      destruct (_ && _); inversion Hl; subst.
      split; [reflexivity|]. intros E; subst. discriminate.
Qed.

(** Every request of [generate_response] starts with the user query
    message, the [i]-th (from 0) holds [1 + 2 i] messages, and each
    request's messages are those of the previous one followed by an
    assistant message (the content of a response that asked for tools) and
    a user message holding tool results. *)
Theorem generate_response_messages_grow query hist tools otm s :
  let um := [mk_message "user" (Plain query)] in
  let '(text, s_f) := generate_response client model query hist tools otm s in
  exists reqs, calls s_f = calls s ++ reqs /\
    (forall i q, nth_error reqs i = Some q ->
       firstn 1 (req_messages q) = um /\ length (req_messages q) = 1 + 2 * i) /\
    (forall i q q', nth_error reqs i = Some q -> nth_error reqs (S i) = Some q' ->
       exists r res, is_tool_use r = true /\
         req_messages q' = req_messages q ++
           [mk_message "assistant" (Blocks (content r)); mk_message "user" (Results res)]).
Proof.
  intros um.
  pose proof (generate_response_trace query hist tools otm s) as T. simpl in T.
  destruct (generate_response client model query hist tools otm s) as [text s_f].
  destruct T as (rounds & reqs & ts & Hc & Hlen & _ & _ & Hall & _ & Hreq & _).
  fold um in Hreq.
  assert (Msgs : forall i q, nth_error reqs i = Some q ->
            exists rd, nth_error rounds i = Some rd /\
              req_messages q = um ++ flat_map round_msgs (firstn (S i) rounds)).
  { intros i q Hq.
    destruct (nth_error_same_length reqs rounds _ q (eq_sym (eq_sym Hlen)) Hq) as [rd Hrd].
    exists rd. split; [exact Hrd|]. rewrite (Hreq i q rd Hq Hrd). reflexivity. }
  exists (initial_request model query hist tools :: reqs). split; [exact Hc|]. split.
  - intros [|i] q Hq; simpl in Hq.
    + inversion Hq; subst. split; reflexivity.
    + destruct (Msgs i q Hq) as (rd & Hrd & Hm). rewrite Hm.
      split; [reflexivity|].
      rewrite length_app, length_flat_map_round_msgs, length_firstn.
      assert (i < length rounds) by (apply nth_error_Some; congruence).
      rewrite Nat.min_l by lia. simpl. lia.
  - intros [|i] q q' Hq Hq'; simpl in Hq, Hq'.
    + inversion Hq; subst. destruct (Msgs 0 q' Hq') as (rd & Hrd & Hm).
      pose proof (proj1 (Forall_forall _ _) Hall rd (nth_error_In _ _ Hrd)) as Ht.
      exists (fst rd), (snd rd). split; [exact Ht|]. rewrite Hm.
      destruct rounds as [|rd' rounds']; [discriminate|]. simpl in Hrd. inversion Hrd; subst.
      simpl. reflexivity.
    + destruct (Msgs i q Hq) as (rd & Hrd & Hm).
      destruct (Msgs (S i) q' Hq') as (rd' & Hrd' & Hm').
      pose proof (proj1 (Forall_forall _ _) Hall rd' (nth_error_In _ _ Hrd')) as Ht.
      exists (fst rd'), (snd rd'). split; [exact Ht|]. rewrite Hm', Hm.
      rewrite (firstn_S_nth rounds (S i) rd' Hrd'), flat_map_app, app_assoc.
      reflexivity.
Qed.

(** When the first response stops for tool use and the caller gave a tool
    manager and a non-empty tools list, [generate_response] runs at least
    one tool round, starting with the tool-use blocks of that first
    response, and makes two or three model calls in all. *)
Theorem generate_response_enters_loop query hist tools otm s :
  let r0 := client (calls s) (initial_request model query hist tools) in
  is_tool_use r0 = true -> otm <> None -> tools_truthy tools = true ->
  let '(text, s_f) := generate_response client model query hist tools otm s in
  2 <= length (calls s_f) - length (calls s) <= 3 /\
  exists rest, tool_log s_f = tool_log s ++ tool_invocations (content r0) ++ rest.
Proof.
  intros r0 Ht Ho Htr.
  pose proof (generate_response_trace query hist tools otm s) as T. simpl in T.
  destruct (generate_response client model query hist tools otm s) as [text s_f].
  destruct T as (rounds & reqs & ts & Hc & Hlen & Hb & Hlog & _ & Hfst & _ & _ & _ & _ & Hentry).
  destruct Hentry as [(_ & _ & [H | [H | H]]) | (Hne & _)];
    [fold r0 in H; congruence | contradiction | congruence |].
  destruct rounds as [|rd rounds']; [contradiction|].
  split.
  - rewrite Hc, length_app. simpl. simpl in Hlen. unfold MAX_TOOL_ROUNDS in Hb.
    simpl in Hb. lia.
  - destruct reqs as [|q reqs']; [discriminate|]. simpl in Hfst.
    inversion Hfst as [Hrd]. fold r0 in Hrd.
    exists (flat_map (fun rd => tool_invocations (content (fst rd))) rounds').
    rewrite Hlog. simpl. now rewrite Hrd.
Qed.

(** [generate_response] changes no list object that existed before the
    call, and its own [messages] list still holds only the user query when
    it returns: the tool loop appended to a copy. *)
Theorem generate_response_frame query hist tools otm s :
  let '(text, s_f) := generate_response client model query hist tools otm s in
  (forall l, l < next_loc s -> heap s_f l = heap s l) /\
  heap s_f (next_loc s) = [mk_message "user" (Plain query)].
Proof.
  pose proof (generate_response_trace query hist tools otm s) as T. simpl in T.
  destruct (generate_response client model query hist tools otm s) as [text s_f].
  destruct T as (rounds & reqs & ts & _ & _ & _ & _ & _ & _ & _ & Hold & Hnew & _).
  split; [exact Hold|exact Hnew].
Qed.

(** The tools [generate_response] executes are exactly those requested by
    the responses it got, the last one excepted, in order; those are at
    most [MAX_TOOL_ROUNDS] responses, each of which stopped for tool use. *)
Theorem generate_response_executed_tools query hist tools otm s :
  let q0 := initial_request model query hist tools in
  let '(text, s_f) := generate_response client model query hist tools otm s in
  exists reqs,
    calls s_f = calls s ++ q0 :: reqs /\
    let asked := removelast (client (calls s) q0 :: replies client (calls s ++ [q0]) reqs) in
    length asked <= MAX_TOOL_ROUNDS /\
    Forall (fun r => is_tool_use r = true) asked /\
    tool_log s_f = tool_log s ++ flat_map (fun r => tool_invocations (content r)) asked /\
    text = first_text (content (last (client (calls s) q0 :: replies client (calls s ++ [q0]) reqs)
                                   (client (calls s) q0))).
Proof.
  intros q0.
  pose proof (generate_response_trace query hist tools otm s) as T. cbv zeta in T.
  destruct (generate_response client model query hist tools otm s) as [text s_f].
  destruct T as (rounds & reqs & ts & Hc & _ & Hb & Hlog & Hall & Hfst & _ & _ & _ & Htext & _).
  exists reqs. split; [exact Hc|].
  fold q0 in Hfst, Htext. rewrite <- Hfst.
  split; [now rewrite length_map|].
  split; [now apply Forall_map|].
  split; [|exact Htext].
  rewrite Hlog, flat_map_concat_map, flat_map_concat_map, map_map. reflexivity.
Qed.

(** Edge case: a round whose response stops for tool use but holds no
    tool-use block invokes no tool, reports no error, and appends a user
    message with an empty list of tool results; its follow-up request
    offers tools exactly when the round counter is below the maximum. *)
Theorem tool_round_without_tool_blocks rc l sys ts tm r s :
  tool_invocations (content r) = [] ->
  let '((r', has_error), s') := tool_round client model rc l sys ts tm r s in
  has_error = false /\ tool_log s' = tool_log s /\
  heap s' l = heap s l ++ [mk_message "assistant" (Blocks (content r));
                           mk_message "user" (Results [])] /\
  exists q, calls s' = calls s ++ [q] /\
    req_tools q = (if Nat.ltb rc MAX_TOOL_ROUNDS then Some ts else None).
Proof.
  intros H. rewrite tool_round_eq. rewrite (tool_outcomes_nil _ _ _ H). simpl.
  rewrite H, app_nil_r. split; [reflexivity|]. split; [reflexivity|].
  split; [now rewrite upd_same|].
  eexists. split; [reflexivity|]. simpl. destruct (Nat.ltb rc MAX_TOOL_ROUNDS); reflexivity.
Qed.

(** With a tool manager that never raises, the loop only stops when a
    response no longer stops for tool use or after [MAX_TOOL_ROUNDS]
    rounds. *)
Theorem tool_loop_exit_without_errors l sys ts tm r s r_f n s_f :
  (forall log name input, exists v, execute_tool tm log name input = Returned v) ->
  tool_loop client model MAX_TOOL_ROUNDS 0 l sys ts tm r s = ((r_f, n), s_f) ->
  is_tool_use r_f = false \/ n = MAX_TOOL_ROUNDS.
Proof.
  intros Hno H. apply tool_loop_trace in H.
  destruct H as (rounds & reqs & _ & _ & _ & _ & _ & Hlen & Hn & Hb & Hall & _ & _ & _ & _ & Hexit).
  simpl in Hn, Hb.
  destruct Hexit as [[Hne Hfl] | [Hg | Hf]].
  - exfalso.
    assert (Hin : In (last rounds (r, [])) rounds).
    { pose proof (@app_removelast_last _ rounds (r, []) Hne) as E.
      rewrite E at 2. apply in_or_app. right. now left. }
    pose proof (proj1 (Forall_forall _ _) Hall _ Hin) as (_ & _ & log & Hres).
    rewrite Hres, flagged_raised in Hfl.
    apply existsb_exists in Hfl. destruct Hfl as [[id o] [Hio Hr]].
    apply tool_outcomes_from_manager in Hio. destruct Hio as (log' & name & input & Ho).
    destruct (Hno log' name input) as [v Hv]. rewrite Hv in Ho. subst o. discriminate.
  - unfold guard in Hg. apply andb_false_iff in Hg. destruct Hg as [Hg|Hg]; [now left|].
    right. apply Nat.ltb_ge in Hg. lia.
  - right. lia.
Qed.

End Extras.

(** ** Concrete runs *)

Definition search_def : tool_def :=
  mk_tool_def "search_course_content" "Search" "{}".

Definition block_t1 : content_block :=
  ToolUseBlock "t1" "search_course_content" [("query", "ML")].

(** A tool-use response with a preamble text block, as providers send. *)
Definition resp_tool : response :=
  mk_response "tool_use" [TextBlock "Let me search."; block_t1].

(** A response that stops for tool use without any tool-use block. *)
Definition resp_tool_no_blocks : response :=
  mk_response "tool_use" [TextBlock "Let me think."].

Definition resp_final : response :=
  mk_response "end_turn" [TextBlock "Final answer."].

Definition client_always_tool : list request -> request -> response :=
  fun _ _ => resp_tool.

Definition client_final : list request -> request -> response :=
  fun _ _ => resp_final.

Definition tm_ok : tool_manager :=
  mk_tool_manager (fun _ _ _ => Returned "ML is a subset of AI").

Definition tm_raise : tool_manager :=
  mk_tool_manager (fun _ _ _ => Raised "Tool execution failed").

(** The caller's message list at location 0. *)
Definition s_init : state :=
  mk_state (fun l => if Nat.eqb l 0 then [mk_message "user" (Plain "What is ML?")] else [])
           1 [] [].

Definition loop_run_ok :=
  tool_loop client_always_tool "m" MAX_TOOL_ROUNDS 0 1 "sys" [search_def] tm_ok
    resp_tool s_init.

Definition loop_run_raise :=
  tool_loop client_always_tool "m" MAX_TOOL_ROUNDS 0 1 "sys" [search_def] tm_raise
    resp_tool s_init.

Definition copy_run :=
  tool_loop client_always_tool "m" MAX_TOOL_ROUNDS 0 (fst (copy 0 s_init)) "sys"
    [search_def] tm_ok resp_tool (snd (copy 0 s_init)).

Example loop_run_ok_rounds : snd (fst loop_run_ok) = 2.
Proof. reflexivity. Qed.

Example loop_run_raise_rounds : snd (fst loop_run_raise) = 1.
Proof. reflexivity. Qed.

(** ** Witnesses *)

Lemma extract_text_response_first_text_witness :
  _extract_text_response resp_tool = "Let me search.".
Proof.
  apply (proj1 (extract_text_response_first_text resp_tool) [] "Let me search." [block_t1]).
  - reflexivity.
  - intros t' [].
Defined.

Lemma generate_response_no_tool_use_witness :
  fst (generate_response client_final "m" "What is ML?" None None None s_init)
  = "Final answer.".
Proof.
  pose proof (generate_response_no_tool_use client_final "m" "What is ML?" None None None
                s_init eq_refl) as H.
  destruct (generate_response client_final "m" "What is ML?" None None None s_init)
    as [text s'].
  destruct H as [H _]. exact H.
Defined.

Lemma generate_response_tool_use_without_tools_witness :
  fst (generate_response client_always_tool "m" "What is ML?" None None (Some tm_ok) s_init)
  = "Let me search.".
Proof.
  pose proof (generate_response_tool_use_without_tools client_always_tool "m" "What is ML?"
                None None (Some tm_ok) s_init eq_refl (or_intror eq_refl)) as H.
  destruct (generate_response client_always_tool "m" "What is ML?" None None (Some tm_ok)
              s_init) as [text s'].
  destruct H as [H _]. exact H.
Defined.

Lemma tool_calls_bounded_witness :
  length (calls (snd loop_run_ok)) = length (calls s_init) + snd (fst loop_run_ok) /\
  snd (fst loop_run_ok) <= MAX_TOOL_ROUNDS.
Proof.
  apply (proj1 (tool_calls_bounded client_always_tool "m") 1 "sys" [search_def] tm_ok
           resp_tool s_init (fst (fst loop_run_ok)) (snd (fst loop_run_ok)) (snd loop_run_ok)).
  reflexivity.
Defined.

Lemma follow_up_offers_tools_witness :
  exists reqs, calls (snd loop_run_ok) = calls s_init ++ reqs /\
    forall q, nth_error reqs (MAX_TOOL_ROUNDS - 1) = Some q ->
              req_tools q = None /\ req_tool_choice q = None.
Proof.
  apply (proj2 (follow_up_offers_tools client_always_tool "m") 1 "sys" [search_def] tm_ok
           resp_tool s_init (fst (fst loop_run_ok)) (snd (fst loop_run_ok)) (snd loop_run_ok)).
  reflexivity.
Defined.

Lemma tool_loop_message_shape_witness :
  exists rounds reqs,
    heap (snd loop_run_ok) 1 = heap s_init 1 ++ flat_map round_msgs rounds /\
    length reqs = 2 /\ calls (snd loop_run_ok) = calls s_init ++ reqs.
Proof.
  destruct (tool_loop_message_shape client_always_tool "m" MAX_TOOL_ROUNDS 0 1 "sys"
              [search_def] tm_ok resp_tool s_init (fst (fst loop_run_ok))
              (snd (fst loop_run_ok)) (snd loop_run_ok) eq_refl)
    as (rounds & reqs & Hh & _ & _ & Hc & _).
  exists rounds, reqs. split; [exact Hh|]. split; [|exact Hc].
  apply (f_equal (@length request)) in Hc. rewrite length_app in Hc.
  assert (L : length (calls (snd loop_run_ok)) = 2) by (vm_compute; reflexivity).
  rewrite L in Hc. simpl in Hc. lia.
Defined.

Lemma tool_error_final_call_witness :
  exists q, calls (snd loop_run_raise) = calls s_init ++ [q] /\ req_tools q = None.
Proof.
  destruct (tool_error_final_call client_always_tool "m" 1 0 1 "sys" [search_def] tm_raise
              resp_tool s_init "t1" "Tool execution failed" (fst (fst loop_run_raise))
              (snd (fst loop_run_raise)) (snd loop_run_raise) eq_refl (or_introl eq_refl)
              eq_refl)
    as (_ & _ & q & Hc & Ht & _).
  exists q. split; [exact Hc | exact Ht].
Defined.

Lemma tool_error_stops_rounds_witness :
  exists rounds reqs, calls (snd loop_run_raise) = calls s_init ++ reqs /\
    length reqs = 1 /\ heap (snd loop_run_raise) 1 = heap s_init 1 ++ flat_map round_msgs rounds.
Proof.
  destruct (tool_error_stops_rounds client_always_tool "m" 1 "sys" [search_def] tm_raise
              resp_tool s_init (fst (fst loop_run_raise)) (snd (fst loop_run_raise))
              (snd loop_run_raise) eq_refl)
    as (rounds & reqs & Hh & Hc & Hk).
  exists rounds, reqs. split; [exact Hc|]. split; [|exact Hh].
  apply (f_equal (@length request)) in Hc. rewrite length_app in Hc.
  assert (L : length (calls (snd loop_run_raise)) = 1) by (vm_compute; reflexivity).
  rewrite L in Hc. simpl in Hc. lia.
Defined.

Lemma handle_tool_loop_frame_witness :
  heap (snd (_handle_tool_loop client_always_tool "m" resp_tool 0 "sys" [search_def] tm_ok
               s_init)) 0 = [mk_message "user" (Plain "What is ML?")].
Proof.
  exact (handle_tool_loop_frame client_always_tool "m" resp_tool 0 "sys" [search_def] tm_ok
           s_init 0 (le_n 1)).
Defined.

Lemma exhausted_rounds_text_witness :
  fst (_handle_tool_loop client_always_tool "m" resp_tool 0 "sys" [search_def] tm_ok s_init)
  = "Let me search.".
Proof.
  rewrite (proj1 (exhausted_rounds_text client_always_tool "m" resp_tool 0 "sys" [search_def]
                    tm_ok s_init (fst (fst copy_run)) (snd (fst copy_run)) (snd copy_run)
                    eq_refl eq_refl eq_refl)).
  reflexivity.
Defined.

(** ** Counterexample *)

(** C7 as stated fails: the loop stops at [MAX_TOOL_ROUNDS] with a response
    that still stops for tool use, and [_handle_tool_loop] returns that
    response's preamble text, not the empty string. *)
Lemma exhausted_rounds_nonempty_text :
  snd (fst copy_run) = MAX_TOOL_ROUNDS /\
  is_tool_use (fst (fst copy_run)) = true /\
  fst (_handle_tool_loop client_always_tool "m" resp_tool 0 "sys" [search_def] tm_ok s_init)
  = "Let me search." /\
  fst (_handle_tool_loop client_always_tool "m" resp_tool 0 "sys" [search_def] tm_ok s_init)
  <> "".
Proof.
  split; [reflexivity|]. split; [reflexivity|].
  assert (E : fst (_handle_tool_loop client_always_tool "m" resp_tool 0 "sys" [search_def]
                     tm_ok s_init) = "Let me search.") by (vm_compute; reflexivity).
  split; [exact E|]. rewrite E. discriminate.
Qed.

(** ** Witnesses of the further properties *)

Lemma execute_tools_error_flag_witness :
  snd (fst (_execute_tools resp_tool tm_raise s_init)) = true /\
  forall t, In t (fst (fst (_execute_tools resp_tool tm_raise s_init))) ->
            is_error t = None \/ is_error t = Some true.
Proof.
  pose proof (execute_tools_error_flag resp_tool tm_raise s_init) as H.
  destruct (_execute_tools resp_tool tm_raise s_init) as [[results he] s'] eqn:E.
  destruct H as (H1 & H2 & H3 & _). simpl. split; [|exact H3].
  rewrite H2. reflexivity.
Defined.

Lemma generate_response_request_params_witness :
  exists reqs,
    calls (snd (generate_response client_always_tool "m" "What is ML?" None
                  (Some [search_def]) (Some tm_ok) s_init)) = calls s_init ++ reqs /\
    1 <= length reqs <= 3 /\
    Forall (fun q => forall l, req_tools q = Some l -> l = [search_def]) reqs.
Proof.
  pose proof (generate_response_request_params client_always_tool "m" "What is ML?" None
                (Some [search_def]) (Some tm_ok) s_init) as H.
  destruct (generate_response client_always_tool "m" "What is ML?" None (Some [search_def])
              (Some tm_ok) s_init) as [text s_f].
  destruct H as (reqs & Hc & Hl & Hall). exists reqs. split; [exact Hc|].
  split; [exact Hl|]. eapply Forall_impl; [|exact Hall].
  intros q (_ & _ & _ & _ & _ & _ & Ht) l Hq. destruct (Ht l Hq) as [E _].
  now inversion E.
Defined.

Lemma generate_response_messages_grow_witness :
  exists reqs,
    calls (snd (generate_response client_always_tool "m" "What is ML?" None
                  (Some [search_def]) (Some tm_ok) s_init)) = calls s_init ++ reqs /\
    forall i q, nth_error reqs i = Some q -> length (req_messages q) = 1 + 2 * i.
Proof.
  pose proof (generate_response_messages_grow client_always_tool "m" "What is ML?" None
                (Some [search_def]) (Some tm_ok) s_init) as H.
  destruct (generate_response client_always_tool "m" "What is ML?" None (Some [search_def])
              (Some tm_ok) s_init) as [text s_f].
  destruct H as (reqs & Hc & Hm & _). exists reqs. split; [exact Hc|].
  intros i q Hq. apply (Hm i q Hq).
Defined.

Lemma generate_response_enters_loop_witness :
  let s_f := snd (generate_response client_always_tool "m" "What is ML?" None
                    (Some [search_def]) (Some tm_ok) s_init) in
  2 <= length (calls s_f) - length (calls s_init) <= 3.
Proof.
  pose proof (generate_response_enters_loop client_always_tool "m" "What is ML?" None
                (Some [search_def]) (Some tm_ok) s_init eq_refl
                (fun E => match E with eq_refl => I end) eq_refl) as H.
  destruct (generate_response client_always_tool "m" "What is ML?" None (Some [search_def])
              (Some tm_ok) s_init) as [text s_f].
  destruct H as [H _]. exact H.
Defined.

Lemma generate_response_frame_witness :
  heap (snd (generate_response client_always_tool "m" "What else?" None
               (Some [search_def]) (Some tm_ok) s_init)) 0 =
  [mk_message "user" (Plain "What is ML?")].
Proof.
  pose proof (generate_response_frame client_always_tool "m" "What else?" None
                (Some [search_def]) (Some tm_ok) s_init) as H.
  destruct (generate_response client_always_tool "m" "What else?" None (Some [search_def])
              (Some tm_ok) s_init) as [text s_f].
  destruct H as [H _]. exact (H 0 (le_n 1)).
Defined.

Lemma tool_round_without_tool_blocks_witness :
  snd (fst (tool_round client_always_tool "m" 1 0 "sys" [search_def] tm_ok
              resp_tool_no_blocks s_init)) = false.
Proof.
  pose proof (tool_round_without_tool_blocks client_always_tool "m" 1 0 "sys" [search_def]
                tm_ok resp_tool_no_blocks s_init eq_refl) as H.
  destruct (tool_round client_always_tool "m" 1 0 "sys" [search_def] tm_ok
              resp_tool_no_blocks s_init) as [[r' he] s'].
  destruct H as [H _]. exact H.
Defined.

Lemma tool_loop_exit_without_errors_witness :
  is_tool_use (fst (fst loop_run_ok)) = false \/ snd (fst loop_run_ok) = MAX_TOOL_ROUNDS.
Proof.
  apply (tool_loop_exit_without_errors client_always_tool "m" 1 "sys" [search_def] tm_ok
           resp_tool s_init (fst (fst loop_run_ok)) (snd (fst loop_run_ok)) (snd loop_run_ok)).
  - intros log name input. exists "ML is a subset of AI". reflexivity.
  - reflexivity.
Defined.
